(** * Energy and utilities billing: the extractor and the loader scripts

    The repository holds two straight-line Python scripts:

    - [extractor/extract.py] downloads a Parquet file with
      [pd.read_parquet], prints [data.head(10)] and [data.columns];
    - [postgres/load.py] calls [load_dotenv()], reads five variables with
      [os.getenv], opens a connection with [psycopg2.connect] and closes it.

    Each script is embedded as a computation in a small state and exception
    monad.  What lies outside the repository (the network, the Parquet
    decoder, the [.env] file, the database server) is the [World] a script
    runs in; every theorem quantifies over all worlds. *)

From Stdlib Require Import ZArith List Ascii String Lia.
From stdpp Require Import base option list gmap strings.

Local Open Scope string_scope.
Local Open Scope list_scope.

(** ** Script monad

    A module body is a sequence of statements over a mutable state [St];
    a statement either completes or raises an exception of type [Exn].
    An uncaught exception stops the sequence and keeps the effects made so
    far (what was printed stays printed). *)

Module Script.

Inductive completion (Exn A : Type) : Type :=
| Normal (a : A)
| Raised (e : Exn).

Arguments Normal {Exn A} a.
Arguments Raised {Exn A} e.

Definition script (St Exn A : Type) : Type := St -> completion Exn A * St.

Section Ops.
Context {St Exn : Type}.

Definition ret {A} (a : A) : script St Exn A := fun s => (Normal a, s).

Definition bind {A B} (k : A -> script St Exn B) (m : script St Exn A)
  : script St Exn B :=
  fun s =>
    match m s with
    | (Normal a, s') => k a s'
    | (Raised e, s') => (Raised e, s')
    end.

Definition raise {A} (e : Exn) : script St Exn A := fun s => (Raised e, s).

Definition get : script St Exn St := fun s => (Normal s, s).

Definition modify (f : St -> St) : script St Exn unit :=
  fun s => (Normal tt, f s).
End Ops.

#[export] Instance script_ret {St Exn} : MRet (script St Exn) := @ret St Exn.
#[export] Instance script_bind {St Exn} : MBind (script St Exn) := @bind St Exn.

Definition is_raised {Exn A} (c : completion Exn A) : bool :=
  match c with Raised _ => true | Normal _ => false end.

End Script.

Import Script.

(** ** extractor/extract.py *)

Module Extract.

Section Frame.
(** The scalar type of the dataset's cells; the script never inspects it. *)
Variable Cell : Type.

(** A [pandas.DataFrame]: the column labels and the rows in dataset order,
    each row holding one cell per column. *)
Record DataFrame : Type := {
  columns : list string;
  rows : list (list Cell)
}.

(** Stop position of the Python slice [[:n]] over a sequence of [len]
    items: a non-negative [n] is clipped to [len], a negative one counts
    from the end. *)
Definition slice_stop (n : Z) (len : nat) : nat :=
  if (n <? 0)%Z then Z.to_nat (Z.max 0 (Z.of_nat len + n))
  else Nat.min (Z.to_nat n) len.

(** [DataFrame.head(n)] is [self.iloc[:n]]. *)
Definition head (n : Z) (df : DataFrame) : DataFrame :=
  {| columns := columns df;
     rows := take (slice_stop n (length (rows df))) (rows df) |}.

(** What opening a URL yields in the end, redirections followed: no answer
    from the network, an error status, or the bytes served.  A peer that
    never answers gives no run to speak of and is not modelled. *)
Inductive Response : Type :=
| Unreachable
| HttpError (status : Z)
| Body (payload : list Byte.byte).

Inductive exn : Type :=
| URLError
| HTTPError (status : Z)
| ArrowInvalid.

(** The objects handed to [print]. *)
Inductive PyObj : Type :=
| ObjFrame (df : DataFrame)
| ObjIndex (labels : list string).

Record World : Type := {
  http_get : string -> Response
}.

Record Proc : Type := {
  world : World;
  stdout : list PyObj
}.

(** The Parquet decoder: [None] when the payload is not a Parquet file. *)
Variable decode : list Byte.byte -> option DataFrame.

Definition read_parquet (path : string) : script Proc exn DataFrame :=
  s ← get;
  match http_get (world s) path with
  | Unreachable => raise URLError
  | HttpError status => raise (HTTPError status)
  | Body payload =>
      match decode payload with
      | Some df => mret df
      | None => raise ArrowInvalid
      end
  end.

(** [print(o)], on a standard output that takes what is written to it. *)
Definition print (o : PyObj) : script Proc exn unit :=
  modify (fun s => {| world := world s; stdout := stdout s ++ [o] |}).

Definition url : string :=
  "https://huggingface.co/datasets/electricsheepafrica/nigerian_energy_and_utilities_billing_payments/resolve/main/nigerian_energy_and_utilities_billing_payments.parquet".

Definition main : script Proc exn unit :=
  data ← read_parquet url;
  print (ObjFrame (head 10 data));;
  print (ObjIndex (columns data)).

(** One process: a fresh interpreter with nothing printed yet. *)
Definition run (w : World) : completion exn unit * Proc :=
  main {| world := w; stdout := [] |}.

(** Two processes one after the other; the second starts in the world the
    first left behind.  Each component is what the run shows: how it ended
    and what it printed. *)
Definition run_twice (w : World)
  : (completion exn unit * list PyObj) * (completion exn unit * list PyObj) :=
  let '(c1, p1) := run w in
  let '(c2, p2) := run (world p1) in
  ((c1, stdout p1), (c2, stdout p2)).
End Frame.

Arguments columns {Cell} d.
Arguments rows {Cell} d.
Arguments ObjFrame {Cell} df.
Arguments ObjIndex {Cell} labels.
Arguments world {Cell} p.
Arguments stdout {Cell} p.
Arguments head {Cell} n df.
Arguments run {Cell} decode w.
Arguments run_twice {Cell} decode w.

End Extract.

(** ** postgres/load.py *)

Module Load.

(** The keyword arguments of [psycopg2.connect]; [None] is Python's [None]. *)
Record connect_kwargs : Type := {
  dbname : option string;
  host : option string;
  password : option string;
  user : option string;
  port : option string
}.

(** A connection object, named by the server session behind it. *)
Record connection : Type := { session : nat }.

Inductive exn : Type :=
| OperationalError.

(** The library calls a run makes, in program order; [CallGetenv] records
    the value handed back. *)
Inductive Event : Type :=
| CallLoadDotenv
| CallGetenv (name : string) (value : option string)
| CallConnect (kw : connect_kwargs)
| CallClose (conn : connection).

(** The lines of a [.env] file after parsing and variable expansion: a name
    and its value, [None] for a name written without [=]. *)
Definition binding : Type := string * option string.

(** What outlives a process.  [dotenv_file] is [None] when no [.env] file is
    found and [Some bs] when one is found, read and parsed into [bs]; a file
    that cannot be read or decoded is not a world of this model.
    [server_accepts kw env n] tells whether the server opens a session for a
    client that passes [kw], runs in the environment [env] (where the client
    library looks up what [kw] leaves out) and arrives when [n] sessions are
    open. *)
Record World : Type := {
  inherited : gmap string string;
  dotenv_file : option (list binding);
  server_accepts : connect_kwargs -> gmap string string -> nat -> bool;
  sessions : nat
}.

(** A running interpreter: [environ] is [os.environ], a copy of the
    inherited environment private to the process; [live] are the connection
    objects not yet closed. *)
Record Proc : Type := {
  world : World;
  environ : gmap string string;
  live : list connection;
  trace : list Event
}.

Definition log (e : Event) : script Proc exn unit :=
  modify (fun s => {| world := world s; environ := environ s;
                      live := live s; trace := trace s ++ [e] |}).

Definition set_environ (env : gmap string string) : script Proc exn unit :=
  modify (fun s => {| world := world s; environ := env;
                      live := live s; trace := trace s |}).

(** *** python-dotenv *)

(** [d[k] = v] on an ordered dictionary: a known key keeps its place. *)
Fixpoint odict_set (k : string) (v : option string) (d : list binding)
  : list binding :=
  match d with
  | [] => [(k, v)]
  | (k', v') :: d' =>
      if decide (k = k') then (k, v) :: d' else (k', v') :: odict_set k v d'
  end.

Fixpoint odict_get (k : string) (d : list binding) : option (option string) :=
  match d with
  | [] => None
  | (k', v') :: d' => if decide (k = k') then Some v' else odict_get k d'
  end.

(** [DotEnv.dict()]: the bindings gathered into an ordered dictionary, a
    repeated name keeping its last value. *)
Definition dotenv_dict (bs : list binding) : list binding :=
  foldl (fun d b => odict_set b.1 b.2 d) [] bs.

(** [DotEnv.set_as_environment_variables()]: a name already in the
    environment is skipped unless [override]; a name without a value is
    skipped. *)
Definition set_variable (override : bool) (env : gmap string string)
    (b : binding) : gmap string string :=
  if bool_decide (is_Some (env !! b.1)) && negb override then env
  else match b.2 with
       | Some v => <[b.1 := v]> env
       | None => env
       end.

Definition set_as_environment_variables (override : bool) (d : list binding)
    (env : gmap string string) : gmap string string :=
  foldl (set_variable override) env d.

(** [str.casefold] as far as the test below can tell: strings are UTF-8, an
    ASCII capital folds to its small letter and the long s (U+017F, bytes
    C5 BF) to [s]; no other character folds into text that occurs in one of
    the five words compared with. *)
Definition fold_ascii (a : ascii) : ascii :=
  let n := nat_of_ascii a in
  if ((65 <=? n) && (n <=? 90))%nat then ascii_of_nat (n + 32) else a.

Fixpoint casefold (s : string) : string :=
  match s with
  | EmptyString => EmptyString
  | String a s' =>
      match s' with
      | String b s'' =>
          if ((nat_of_ascii a =? 197) && (nat_of_ascii b =? 191))%nat
          then String "s" (casefold s'')
          else String (fold_ascii a) (casefold s')
      | EmptyString => String (fold_ascii a) EmptyString
      end
  end.

(** [_load_dotenv_disabled()]: [PYTHON_DOTENV_DISABLED] is set and folds to
    one of five words. *)
Definition dotenv_disabled (env : gmap string string) : bool :=
  match env !! "PYTHON_DOTENV_DISABLED" with
  | None => false
  | Some v => bool_decide (casefold v ∈ ["1"; "true"; "t"; "yes"; "y"])
  end.

(** What [os.environ[k] = v] accepts: a name that is not empty and holds
    neither [=] nor a NUL, a value without NUL.  For any other binding the
    assignment raises [ValueError]; the model leaves that out, and the
    statements about what a file brings in assume its bindings settable. *)
Definition has_char (c : ascii) (s : string) : bool :=
  bool_decide (c ∈ list_ascii_of_string s).

Definition settable (b : binding) : bool :=
  negb (bool_decide (b.1 = ""))
  && negb (has_char "=" b.1) && negb (has_char "000" b.1)
  && match b.2 with
     | Some v => negb (has_char "000" v)
     | None => true
     end.

(** [load_dotenv(override=...)], whose [override] defaults to [False]: the
    result is [False], and nothing is read, when loading is disabled; it is
    [False] too when no file is found or the file binds nothing. *)
Definition load_dotenv (override : bool) : script Proc exn bool :=
  log CallLoadDotenv;;
  s ← get;
  if dotenv_disabled (environ s) then mret false
  else
    match dotenv_file (world s) with
    | None => mret false
    | Some bs =>
        match dotenv_dict bs with
        | [] => mret false
        | d =>
            set_environ (set_as_environment_variables override d (environ s));;
            mret true
        end
    end.

(** *** os *)

Definition getenv (name : string) : script Proc exn (option string) :=
  s ← get;
  let value := environ s !! name in
  log (CallGetenv name value);;
  mret value.

(** *** psycopg2 *)

Definition connect (kw : connect_kwargs) : script Proc exn connection :=
  log (CallConnect kw);;
  s ← get;
  let w := world s in
  if server_accepts w kw (environ s) (sessions w) then
    let conn := {| session := sessions w |} in
    modify (fun s =>
      {| world := {| inherited := inherited w; dotenv_file := dotenv_file w;
                     server_accepts := server_accepts w;
                     sessions := S (sessions w) |};
         environ := environ s; live := conn :: live s; trace := trace s |});;
    mret conn
  else raise OperationalError.

#[export] Instance connection_eq_dec : EqDecision connection.
Proof. solve_decision. Defined.

(** [conn.close()]: releases the session of a live connection; closing a
    closed connection does nothing. *)
Definition close (conn : connection) : script Proc exn unit :=
  log (CallClose conn);;
  s ← get;
  let w := world s in
  if bool_decide (conn ∈ live s) then
    modify (fun s =>
      {| world := {| inherited := inherited w; dotenv_file := dotenv_file w;
                     server_accepts := server_accepts w;
                     sessions := pred (sessions w) |};
         environ := environ s;
         live := filter (fun c => c ≠ conn) (live s);
         trace := trace s |})
  else mret tt.

(** *** The script

    [load_dotenv()] is called without arguments, so with [override=False]. *)

Definition main : script Proc exn unit :=
  load_dotenv false;;
  db_name ← getenv "DB_NAME";
  db_username ← getenv "DB_USERNAME";
  db_password ← getenv "DB_PASSWORD";
  db_host ← getenv "DB_HOST";
  db_port ← getenv "DB_PORT";
  conn ← connect {| dbname := db_name;
                    host := db_host;
                    password := db_password;
                    user := db_username;
                    port := db_port |};
  close conn.

(** One process, started in the world [w]. *)
Definition run (w : World) : completion exn unit * Proc :=
  main {| world := w; environ := inherited w; live := []; trace := [] |}.

(** Two processes one after the other; the second starts in the world the
    first left behind. *)
Definition run_twice (w : World)
  : (completion exn unit * list Event) * (completion exn unit * list Event) :=
  let '(c1, p1) := run w in
  let '(c2, p2) := run (world p1) in
  ((c1, trace p1), (c2, trace p2)).

End Load.

(** ** Vocabulary of the statements *)

Module Spec.
Import Load.

(** [os.environ] once [load_dotenv()] has returned. *)
Definition loaded (file : option (list binding)) (env : gmap string string)
  : gmap string string :=
  if dotenv_disabled env then env
  else
    match file with
    | None => env
    | Some bs => set_as_environment_variables false (dotenv_dict bs) env
    end.

Definition effective_environ (w : World) : gmap string string :=
  loaded (dotenv_file w) (inherited w).

(** The value a [.env] file gives a name: that of its last binding. *)
Fixpoint last_value (k : string) (bs : list binding) : option (option string) :=
  match bs with
  | [] => None
  | b :: bs' =>
      match last_value k bs' with
      | Some v => Some v
      | None => if decide (k = b.1) then Some b.2 else None
      end
  end.

Definition required : list string :=
  ["DB_NAME"; "DB_USERNAME"; "DB_PASSWORD"; "DB_HOST"; "DB_PORT"].

Definition is_close (e : Event) : bool :=
  match e with CallClose _ => true | _ => false end.

Definition is_connect (e : Event) : bool :=
  match e with CallConnect _ => true | _ => false end.

(** A call to [load_dotenv] or to [os.getenv]. *)
Definition is_config_read (e : Event) : bool :=
  match e with
  | CallLoadDotenv | CallGetenv _ _ => true
  | _ => false
  end.

(** The keyword arguments built from the five variables of an environment. *)
Definition kwargs_of (env : gmap string string) : connect_kwargs :=
  {| dbname := env !! "DB_NAME";
     host := env !! "DB_HOST";
     password := env !! "DB_PASSWORD";
     user := env !! "DB_USERNAME";
     port := env !! "DB_PORT" |}.

(** The calls that come before the connection attempt. *)
Definition config_calls (env : gmap string string) : list Event :=
  [CallLoadDotenv;
   CallGetenv "DB_NAME" (env !! "DB_NAME");
   CallGetenv "DB_USERNAME" (env !! "DB_USERNAME");
   CallGetenv "DB_PASSWORD" (env !! "DB_PASSWORD");
   CallGetenv "DB_HOST" (env !! "DB_HOST");
   CallGetenv "DB_PORT" (env !! "DB_PORT")].

(** The Connector loads a [.env] file that is present before it reads: a
    variable among the five that the process does not inherit is read with
    the value the file gives it. *)
Definition present_file_always_loaded : Prop :=
  forall (w : World) (bs : list binding) (k v : string),
    dotenv_file w = Some bs ->
    k ∈ required ->
    inherited w !! k = None ->
    last_value k bs = Some (Some v) ->
    CallGetenv k (Some v) ∈ trace (run w).2.

(** Nothing but the [.env] file and the five variables is consulted: two
    worlds that differ only in inherited variables other than the five end
    alike and make the same calls. *)
Definition five_variables_sole_source : Prop :=
  forall w1 w2 : World,
    dotenv_file w1 = dotenv_file w2 ->
    server_accepts w1 = server_accepts w2 ->
    sessions w1 = sessions w2 ->
    (forall k : string,
       k ∈ required -> inherited w1 !! k = inherited w2 !! k) ->
    (run w1).1 = (run w2).1 /\ trace (run w1).2 = trace (run w2).2.

Definition loads_file_then_reads_five_only : Prop :=
  present_file_always_loaded /\ five_variables_sole_source.


End Spec.

(** ** Sample worlds *)

Module Samples.

(** A toy decoder: one row per payload byte, an empty payload is no file. *)
Definition decode (payload : list Byte.byte) : option (Extract.DataFrame Z) :=
  match payload with
  | [] => None
  | _ => Some {| Extract.columns := ["customer_id"; "amount_billed"];
                 Extract.rows :=
                   map (fun b => [Z.of_N (Byte.to_N b); 0%Z]) payload |}
  end.

Definition serving (payload : list Byte.byte) : Extract.World :=
  {| Extract.http_get := fun _ => Extract.Body payload |}.

Definition twelve_rows : Extract.World :=
  serving (map (fun n => default Byte.x00 (Byte.of_N (N.of_nat n))) (seq 1 12)).

Definition three_rows : Extract.World :=
  serving [Byte.x01; Byte.x02; Byte.x03].

Definition offline : Extract.World :=
  {| Extract.http_get := fun _ => Extract.Unreachable |}.

(** A server that opens a session for any client. *)
Definition trusting (kw : Load.connect_kwargs) (env : gmap string string)
    (n : nat) : bool := true.

(** A server that turns every client away. *)
Definition closed_door (kw : Load.connect_kwargs) (env : gmap string string)
    (n : nat) : bool := false.

(** Nothing set anywhere, and a server that accepts the client library's
    defaults. *)
Definition bare : Load.World :=
  {| Load.inherited := ∅; Load.dotenv_file := None;
     Load.server_accepts := trusting; Load.sessions := 0 |}.

(** [DB_HOST] set both in the shell and in the file, the rest in the file. *)
Definition shell_and_file : Load.World :=
  {| Load.inherited := {[ "DB_HOST" := "db.internal" ]};
     Load.dotenv_file :=
       Some [("DB_HOST", Some "localhost"); ("DB_NAME", Some "billing");
             ("DB_USERNAME", Some "etl"); ("DB_PASSWORD", Some "secret");
             ("DB_PORT", Some "not-a-number")];
     Load.server_accepts := trusting; Load.sessions := 2 |}.

Definition refused : Load.World :=
  {| Load.inherited := {[ "DB_HOST" := "db.internal" ]};
     Load.dotenv_file := None;
     Load.server_accepts := closed_door; Load.sessions := 2 |}.

(** Nothing inherited; the file binds [DB_NAME] twice and writes [DB_PORT]
    without a value. *)
Definition file_only : Load.World :=
  {| Load.inherited := ∅;
     Load.dotenv_file :=
       Some [("DB_NAME", Some "staging"); ("DB_NAME", Some "billing");
             ("DB_PORT", None)];
     Load.server_accepts := trusting; Load.sessions := 0 |}.

(** The same server and file as [shell_and_file], and more in the shell. *)
Definition busy_shell : Load.World :=
  {| Load.inherited :=
       {[ "DB_HOST" := "db.internal"; "HOME" := "/home/etl" ]};
     Load.dotenv_file :=
       Some [("DB_HOST", Some "localhost"); ("DB_NAME", Some "billing");
             ("DB_USERNAME", Some "etl"); ("DB_PASSWORD", Some "secret");
             ("DB_PORT", Some "not-a-number"); ("API_KEY", Some "k")];
     Load.server_accepts := trusting; Load.sessions := 2 |}.

(** [DB_NAME] only in the file, and loading switched off in the shell. *)
Definition loading_disabled : Load.World :=
  {| Load.inherited := {[ "PYTHON_DOTENV_DISABLED" := "1" ]};
     Load.dotenv_file := Some [("DB_NAME", Some "billing")];
     Load.server_accepts := trusting; Load.sessions := 0 |}.

(** A server reached only through the host the client library takes from
    [PGHOST] when the [host] argument is left out. *)
Definition through_pghost (kw : Load.connect_kwargs)
    (env : gmap string string) (n : nat) : bool :=
  match Load.host kw with
  | Some _ => true
  | None => bool_decide (is_Some (env !! "PGHOST"))
  end.

Definition pghost_set : Load.World :=
  {| Load.inherited := {[ "PGHOST" := "db.internal" ]};
     Load.dotenv_file := None;
     Load.server_accepts := through_pghost; Load.sessions := 0 |}.

Definition pghost_unset : Load.World :=
  {| Load.inherited := ∅; Load.dotenv_file := None;
     Load.server_accepts := through_pghost; Load.sessions := 0 |}.

End Samples.

(** ** The extractor *)

Section ExtractFacts.
Import Extract.
Context {Cell : Type}.
Variable decode : list Byte.byte -> option (DataFrame Cell).

Lemma slice_stop_10 (len : nat) : slice_stop 10 len = Nat.min 10 len.
Proof. reflexivity. Qed.

Lemma head_10_rows (df : DataFrame Cell) :
  rows (head 10 df) = take 10 (rows df).
Proof.
  unfold head; simpl. rewrite slice_stop_10.
  destruct (Nat.le_gt_cases 10 (length (rows df))) as [Hle | Hgt].
  - by rewrite Nat.min_l.
  - rewrite Nat.min_r by lia. rewrite !take_ge by lia. done.
Qed.

Lemma head_short (df : DataFrame Cell) :
  length (rows df) < 10 -> head 10 df = df.
Proof.
  intros Hlt. destruct df as [cs rs]; unfold head; simpl in *.
  rewrite slice_stop_10, Nat.min_r by lia. by rewrite take_ge.
Qed.

(** A successful download: both prints happen, in this order. *)
Lemma run_fetched (w : World) payload (df : DataFrame Cell) :
  http_get w url = Body payload ->
  decode payload = Some df ->
  run decode w =
    (Normal tt,
     {| world := w; stdout := [ObjFrame (head 10 df); ObjIndex (columns df)] |}).
Proof.
  intros Hget Hdec. unfold run, main, read_parquet.
  cbv [mbind script_bind bind get]. simpl. by rewrite Hget, Hdec.
Qed.

(** A failed download: the exception leaves before the first print. *)
Lemma run_failed (w : World) :
  (forall payload, http_get w url = Body payload -> decode payload = None) ->
  exists e, run decode w = (Raised e, {| world := w; stdout := [] |}).
Proof.
  intros Hbad. unfold run, main, read_parquet.
  cbv [mbind script_bind bind get]. simpl.
  destruct (http_get w url) as [| status | payload] eqn:Hget; eauto.
  rewrite (Hbad payload eq_refl). eauto.
Qed.

Lemma run_world (w : World) : world (run decode w).2 = w.
Proof.
  unfold run, main, read_parquet.
  cbv [mbind script_bind bind get]. simpl.
  destruct (http_get w url) as [| status | payload]; try done.
  by destruct (decode payload).
Qed.
End ExtractFacts.

(** C1: when the download succeeds and the table has at least 10 rows, the
    run ends normally and standard output holds exactly two objects: the
    frame made of the first 10 rows in dataset order under all the columns,
    then the column labels of the file. *)
Theorem extract_prints_first_ten_rows_then_columns
    {Cell : Type} (decode : list Byte.byte -> option (Extract.DataFrame Cell))
    (w : Extract.World) (payload : list Byte.byte) (df : Extract.DataFrame Cell) :
  Extract.http_get w Extract.url = Extract.Body payload ->
  decode payload = Some df ->
  10 <= length (Extract.rows df) ->
  Extract.run decode w =
    (Normal tt,
     {| Extract.world := w;
        Extract.stdout :=
          [Extract.ObjFrame {| Extract.columns := Extract.columns df;
                               Extract.rows := take 10 (Extract.rows df) |};
           Extract.ObjIndex (Extract.columns df)] |})
  /\ length (take 10 (Extract.rows df)) = 10
  /\ take 10 (Extract.rows df) `prefix_of` Extract.rows df.
Proof.
  intros Hget Hdec Hlen. split; [| split].
  - rewrite (run_fetched decode w payload df Hget Hdec).
    do 3 f_equal. unfold Extract.head. f_equal.
    rewrite slice_stop_10. by rewrite Nat.min_l.
  - rewrite length_take. lia.
  - apply prefix_take.
Qed.

Lemma extract_prints_first_ten_rows_then_columns_witness :
  10 <= length (map (fun n => [Z.of_nat n; 0%Z]) (seq 1 12))
  /\ (Extract.run Samples.decode Samples.twelve_rows).1 = Normal tt
  /\ Extract.stdout (Extract.run Samples.decode Samples.twelve_rows).2 =
       [Extract.ObjFrame
          {| Extract.columns := ["customer_id"; "amount_billed"];
             Extract.rows := map (fun n => [Z.of_nat n; 0%Z]) (seq 1 10) |};
        Extract.ObjIndex ["customer_id"; "amount_billed"]].
Proof.
  pose proof (extract_prints_first_ten_rows_then_columns
                Samples.decode Samples.twelve_rows
                (map (fun n => default Byte.x00 (Byte.of_N (N.of_nat n))) (seq 1 12))
                {| Extract.columns := ["customer_id"; "amount_billed"];
                   Extract.rows := map (fun n => [Z.of_nat n; 0%Z]) (seq 1 12) |}
                eq_refl eq_refl) as H.
  simpl in H. destruct (H ltac:(lia)) as [Hrun _].
  split; [simpl; lia |]. rewrite Hrun. split; reflexivity.
Defined.

(** C2: when the request fails, the resource is unavailable, or the payload
    is not a Parquet file, the run ends with an uncaught exception and
    standard output is empty. *)
Theorem extract_failure_prints_nothing
    {Cell : Type} (decode : list Byte.byte -> option (Extract.DataFrame Cell))
    (w : Extract.World) :
  Extract.http_get w Extract.url = Extract.Unreachable
  \/ (exists status, Extract.http_get w Extract.url = Extract.HttpError status)
  \/ (exists payload, Extract.http_get w Extract.url = Extract.Body payload
                      /\ decode payload = None) ->
  exists e, Extract.run decode w =
              (Raised e, {| Extract.world := w; Extract.stdout := [] |}).
Proof.
  intros Hfail. apply run_failed. intros payload Hget.
  destruct Hfail as [H | [[status H] | [payload' [H Hdec]]]];
    rewrite H in Hget; try discriminate.
  by injection Hget as <-.
Qed.

Lemma extract_failure_prints_nothing_witness :
  exists e, Extract.run Samples.decode Samples.offline =
              (Raised e, {| Extract.world := Samples.offline;
                            Extract.stdout := [] |}).
Proof.
  apply (extract_failure_prints_nothing Samples.decode Samples.offline).
  left. reflexivity.
Defined.

(** C8: when the table has fewer than 10 rows (none included), the run ends
    normally and prints the whole frame, all its rows, then the column
    labels. *)
Theorem extract_short_table_printed_whole
    {Cell : Type} (decode : list Byte.byte -> option (Extract.DataFrame Cell))
    (w : Extract.World) (payload : list Byte.byte) (df : Extract.DataFrame Cell) :
  Extract.http_get w Extract.url = Extract.Body payload ->
  decode payload = Some df ->
  length (Extract.rows df) < 10 ->
  Extract.run decode w =
    (Normal tt,
     {| Extract.world := w;
        Extract.stdout :=
          [Extract.ObjFrame df; Extract.ObjIndex (Extract.columns df)] |}).
Proof.
  intros Hget Hdec Hlen.
  rewrite (run_fetched decode w payload df Hget Hdec).
  by rewrite head_short.
Qed.

Lemma extract_short_table_printed_whole_witness :
  Extract.stdout (Extract.run Samples.decode Samples.three_rows).2 =
    [Extract.ObjFrame
       {| Extract.columns := ["customer_id"; "amount_billed"];
          Extract.rows := [[1%Z; 0%Z]; [2%Z; 0%Z]; [3%Z; 0%Z]] |};
     Extract.ObjIndex ["customer_id"; "amount_billed"]].
Proof.
  rewrite (extract_short_table_printed_whole
             Samples.decode Samples.three_rows
             [Byte.x01; Byte.x02; Byte.x03]
             {| Extract.columns := ["customer_id"; "amount_billed"];
                Extract.rows := [[1%Z; 0%Z]; [2%Z; 0%Z]; [3%Z; 0%Z]] |}
             eq_refl eq_refl ltac:(simpl; lia)).
  reflexivity.
Defined.

(** ** python-dotenv: what loading does to the environment *)

Section DotenvFacts.
Import Load Spec.
Implicit Types (k : string) (v : option string) (d bs : list binding)
  (env : gmap string string).

Lemma odict_get_set k k' v d :
  odict_get k (odict_set k' v d) =
    if decide (k = k') then Some v else odict_get k d.
Proof.
  induction d as [| [k0 v0] d IH]; simpl.
  - by destruct (decide (k = k')).
  - destruct (decide (k' = k0)) as [-> | Hne]; simpl.
    + by destruct (decide (k = k0)).
    + rewrite IH. destruct (decide (k = k0)) as [-> | ?]; [| done].
      by rewrite decide_False by congruence.
Qed.

Lemma odict_set_keys k v d :
  (odict_set k v d).*1 =
    if decide (k ∈ d.*1) then d.*1 else d.*1 ++ [k].
Proof.
  induction d as [| [k0 v0] d IH]; csimpl.
  - done.
  - destruct (decide (k = k0)) as [-> | Hne]; csimpl.
    + rewrite decide_True; [done | left].
    + rewrite IH. destruct (decide (k ∈ d.*1)) as [Hin | Hout].
      * rewrite decide_True; [done | by right].
      * rewrite decide_False; [done |].
        intros Hin. apply elem_of_cons in Hin as [? | ?]; done.
Qed.

Lemma odict_set_NoDup k v d : NoDup d.*1 -> NoDup (odict_set k v d).*1.
Proof.
  intros Hd. rewrite odict_set_keys. case_decide; [done |].
  apply NoDup_app. split_and!; [done | | apply NoDup_singleton].
  intros x Hx Hk. apply list_elem_of_singleton in Hk as ->. done.
Qed.

Lemma odict_get_None k d : k ∉ d.*1 -> odict_get k d = None.
Proof.
  induction d as [| [k0 v0] d IH]; csimpl; [done |].
  intros Hout. apply not_elem_of_cons in Hout as [Hne Hout].
  rewrite decide_False by done. auto.
Qed.

Lemma foldl_odict_get k bs d :
  odict_get k (foldl (fun d b => odict_set b.1 b.2 d) d bs) =
    match last_value k bs with
    | Some v => Some v
    | None => odict_get k d
    end.
Proof.
  revert d. induction bs as [| b bs IH]; intros d; simpl; [done |].
  rewrite IH, odict_get_set.
  destruct (last_value k bs); [done |]. by destruct (decide (k = b.1)).
Qed.

Lemma foldl_odict_NoDup bs d :
  NoDup d.*1 -> NoDup (foldl (fun d b => odict_set b.1 b.2 d) d bs).*1.
Proof.
  revert d. induction bs as [| b bs IH]; intros d Hd; simpl; [done |].
  by apply IH, odict_set_NoDup.
Qed.

(** The dictionary gives every name the value of its last binding. *)
Lemma dotenv_dict_get k bs : odict_get k (dotenv_dict bs) = last_value k bs.
Proof.
  unfold dotenv_dict. rewrite foldl_odict_get. by destruct (last_value k bs).
Qed.

Lemma dotenv_dict_NoDup bs : NoDup (dotenv_dict bs).*1.
Proof. apply foldl_odict_NoDup. constructor. Qed.

(** Without [override], a variable that is set keeps its value. *)
Lemma set_variable_keeps env (b : binding) k (x : string) :
  env !! k = Some x -> set_variable false env b !! k = Some x.
Proof.
  intros Hk. unfold set_variable. rewrite andb_true_r.
  case_bool_decide as Hset; [done |].
  destruct b.2 as [s |]; [| done].
  rewrite lookup_insert_ne; [done |].
  intros <-. apply Hset. by exists x.
Qed.

Lemma set_variable_other env (b : binding) k :
  k ≠ b.1 -> set_variable false env b !! k = env !! k.
Proof.
  intros Hne. unfold set_variable.
  destruct (bool_decide _ && _); [done |].
  destruct b.2; [| done]. by rewrite lookup_insert_ne.
Qed.

Lemma set_as_environment_variables_keeps d env k (x : string) :
  env !! k = Some x ->
  set_as_environment_variables false d env !! k = Some x.
Proof.
  unfold set_as_environment_variables.
  revert env. induction d as [| b d IH]; intros env Hk; simpl; [done |].
  by apply IH, set_variable_keeps.
Qed.

(** A variable that is not set takes the value the dictionary has. *)
Lemma set_as_environment_variables_fresh d env k :
  NoDup d.*1 ->
  env !! k = None ->
  set_as_environment_variables false d env !! k = mjoin (odict_get k d).
Proof.
  unfold set_as_environment_variables.
  revert env. induction d as [| [k0 v0] d IH]; intros env Hd Hk; simpl.
  - done.
  - apply NoDup_cons in Hd as [Hout Hd].
    destruct (decide (k = k0)) as [-> | Hne].
    + unfold set_variable at 2; simpl.
      rewrite bool_decide_eq_false_2
        by (rewrite Hk; intros [? ?]; discriminate).
      simpl. destruct v0 as [s |]; simpl.
      * apply (set_as_environment_variables_keeps d).
        by rewrite lookup_insert_eq.
      * rewrite IH by done. by rewrite odict_get_None.
    + apply IH; [done |]. by rewrite set_variable_other.
Qed.

(** [load_dotenv()] as a function on the environment: what is set stays;
    what is not set takes the file's last value for it, unless loading is
    disabled. *)
Lemma loaded_lookup bs env k :
  loaded (Some bs) env !! k =
    match env !! k with
    | Some x => Some x
    | None => if dotenv_disabled env then None else mjoin (last_value k bs)
    end.
Proof.
  unfold loaded. destruct (dotenv_disabled env).
  - by destruct (env !! k).
  - destruct (env !! k) as [x |] eqn:Hk.
    + by apply set_as_environment_variables_keeps.
    + rewrite set_as_environment_variables_fresh
        by auto using dotenv_dict_NoDup.
      by rewrite dotenv_dict_get.
Qed.

Lemma loaded_keeps file env k (x : string) :
  env !! k = Some x -> loaded file env !! k = Some x.
Proof.
  intros Hk. destruct file as [bs |].
  - by rewrite loaded_lookup, Hk.
  - unfold loaded. by destruct (dotenv_disabled env).
Qed.

Lemma loaded_no_file env : loaded None env = env.
Proof. unfold loaded. by destruct (dotenv_disabled env). Qed.

Lemma loaded_empty_file env : loaded (Some []) env = env.
Proof. unfold loaded. by destruct (dotenv_disabled env). Qed.
End DotenvFacts.

(** ** The loader *)

Section LoadFacts.
Import Load Spec.

Lemma load_dotenv_run (s : Proc) :
  exists b,
    load_dotenv false s =
      (Normal b,
       {| world := world s;
          environ := loaded (dotenv_file (world s)) (environ s);
          live := live s;
          trace := trace s ++ [CallLoadDotenv] |}).
Proof.
  unfold load_dotenv, log, set_environ, loaded.
  cbv [mbind script_bind bind get modify mret script_ret ret]. simpl.
  destruct (dotenv_disabled (environ s)); [by eexists |].
  destruct (dotenv_file (world s)) as [bs |]; simpl; [| by eexists].
  unfold set_as_environment_variables.
  destruct (dotenv_dict bs) as [| b d]; by eexists.
Qed.

Lemma run_eq (w : World) :
  run w =
    let env := effective_environ w in
    if server_accepts w (kwargs_of env) env (sessions w) then
      (Normal tt,
       {| world := w; environ := env; live := [];
          trace := config_calls env ++
                   [CallConnect (kwargs_of env);
                    CallClose {| session := sessions w |}] |})
    else
      (Raised OperationalError,
       {| world := w; environ := env; live := [];
          trace := config_calls env ++ [CallConnect (kwargs_of env)] |}).
Proof.
  unfold run, main.
  destruct (load_dotenv_run
              {| world := w; environ := inherited w; live := []; trace := [] |})
    as [b Hb].
  unfold mbind at 1, script_bind at 1, bind at 1. rewrite Hb. simpl.
  fold (effective_environ w).
  unfold getenv, connect, close, log.
  cbv [mbind script_bind bind get modify mret script_ret ret raise]. simpl.
  change {| dbname := effective_environ w !! "DB_NAME";
            host := effective_environ w !! "DB_HOST";
            password := effective_environ w !! "DB_PASSWORD";
            user := effective_environ w !! "DB_USERNAME";
            port := effective_environ w !! "DB_PORT" |}
    with (kwargs_of (effective_environ w)).
  destruct (server_accepts w _ _ _); simpl; [| done].
  rewrite bool_decide_eq_true_2 by left. simpl.
  rewrite filter_cons_False by (intros Hne; by apply Hne).
  rewrite filter_nil.
  destruct w; reflexivity.
Qed.

(** A run leaves the world as it found it. *)
Lemma run_world_same (w : World) : world (run w).2 = w.
Proof. rewrite run_eq. simpl. by destruct (server_accepts w _ _ _). Qed.

Lemma run_environ (w : World) : environ (run w).2 = effective_environ w.
Proof. rewrite run_eq. simpl. by destruct (server_accepts w _ _ _). Qed.

Lemma effective_environ_lookup (w : World) (k : string) :
  effective_environ w !! k =
    match inherited w !! k with
    | Some x => Some x
    | None =>
        if dotenv_disabled (inherited w) then None
        else
          match dotenv_file w with
          | Some bs => mjoin (last_value k bs)
          | None => None
          end
    end.
Proof.
  unfold effective_environ. destruct (dotenv_file w) as [bs |].
  - apply loaded_lookup.
  - rewrite loaded_no_file.
    destruct (inherited w !! k); [done |].
    by destruct (dotenv_disabled (inherited w)).
Qed.

Lemma getenv_logged (env : gmap string string) (k : string) :
  k ∈ required -> CallGetenv k (env !! k) ∈ config_calls env.
Proof.
  unfold required, config_calls. intros Hk.
  repeat (apply elem_of_cons in Hk as [-> | Hk]; [set_solver |]).
  by apply elem_of_nil in Hk.
Qed.
End LoadFacts.

(** C3, as stated, fails: with [PYTHON_DOTENV_DISABLED=1] in the inherited
    environment and [DB_NAME] bound only in the [.env] file, the file is
    present and is not loaded, and [DB_NAME] is read as [None]. *)
Lemma load_present_file_not_loaded :
  ~ Spec.loads_file_then_reads_five_only.
Proof.
  intros [Hloaded _].
  assert (Hin : Load.CallGetenv "DB_NAME" (Some "billing")
                  ∈ Load.trace (Load.run Samples.loading_disabled).2).
  { apply (Hloaded Samples.loading_disabled [("DB_NAME", Some "billing")]);
      [reflexivity | apply list_elem_of_here | reflexivity | reflexivity]. }
  rewrite run_eq in Hin. cbv zeta in Hin.
  change (Load.server_accepts Samples.loading_disabled) with Samples.trusting
    in Hin.
  cbn [Samples.trusting snd Load.trace] in Hin.
  apply list_elem_of_In in Hin. vm_compute in Hin.
  intuition discriminate.
Qed.

(** The second half of C3 fails as well: a variable that is none of the
    five, here [PGHOST], reaches the connection attempt through the process
    environment and decides how the run ends. *)
Lemma load_outcome_depends_on_other_variables :
  ~ Spec.five_variables_sole_source.
Proof.
  intros Hsole.
  destruct (Hsole Samples.pghost_set Samples.pghost_unset) as [Hend _];
    try reflexivity.
  - intros k Hk. unfold Spec.required in Hk.
    repeat (apply elem_of_cons in Hk as [-> | Hk]; [vm_compute; reflexivity |]).
    by apply elem_of_nil in Hk.
  - vm_compute in Hend. discriminate Hend.
Qed.

(** C3, amended: every run calls [load_dotenv()] first, then reads
    [DB_NAME], [DB_USERNAME], [DB_PASSWORD], [DB_HOST] and [DB_PORT], in this
    order and under these names whatever the world, then makes the
    connection attempt and at most the close: the script reads no other
    variable.  Each read sees an inherited value, else, unless loading is
    disabled through [PYTHON_DOTENV_DISABLED], the last value the file has
    for the name, else nothing. *)
Theorem load_calls_dotenv_then_reads_five (w : Load.World) :
  forallb Load.settable (default [] (Load.dotenv_file w)) = true ->
  let env := Load.environ (Load.run w).2 in
  (exists kw rest,
     Load.trace (Load.run w).2 =
       [Load.CallLoadDotenv;
        Load.CallGetenv "DB_NAME" (env !! "DB_NAME");
        Load.CallGetenv "DB_USERNAME" (env !! "DB_USERNAME");
        Load.CallGetenv "DB_PASSWORD" (env !! "DB_PASSWORD");
        Load.CallGetenv "DB_HOST" (env !! "DB_HOST");
        Load.CallGetenv "DB_PORT" (env !! "DB_PORT");
        Load.CallConnect kw] ++ rest
     /\ (rest = [] \/ exists conn, rest = [Load.CallClose conn]))
  /\ (forall k : string,
        env !! k =
          match Load.inherited w !! k with
          | Some x => Some x
          | None =>
              if Load.dotenv_disabled (Load.inherited w) then None
              else
                match Load.dotenv_file w with
                | Some bs => mjoin (Spec.last_value k bs)
                | None => None
                end
          end).
Proof.
  intros _ env. subst env. rewrite run_environ. split.
  - rewrite run_eq. cbv zeta.
    destruct (Load.server_accepts w _ _ _); cbn [snd Load.trace];
      do 2 eexists; (split; [reflexivity |]); eauto.
  - apply effective_environ_lookup.
Qed.

Lemma load_calls_dotenv_then_reads_five_witness :
  forallb Load.settable
    (default [] (Load.dotenv_file Samples.loading_disabled)) = true
  /\ Load.environ (Load.run Samples.loading_disabled).2 !! "DB_NAME" = None
  /\ Load.environ (Load.run Samples.file_only).2 !! "DB_NAME" = Some "billing".
Proof.
  split; [reflexivity | split].
  - rewrite (proj2 (load_calls_dotenv_then_reads_five
                      Samples.loading_disabled eq_refl) "DB_NAME").
    reflexivity.
  - rewrite (proj2 (load_calls_dotenv_then_reads_five
                      Samples.file_only eq_refl) "DB_NAME").
    reflexivity.
Defined.

(** C4: whatever the environment, the run makes exactly one connection
    attempt, and its five arguments are the five values as read, a variable
    that is not set being read, and passed, as [None]. *)
Theorem load_passes_variables_unvalidated (w : Load.World) :
  let env := Spec.effective_environ w in
  filter (fun e => Spec.is_connect e = true) (Load.trace (Load.run w).2) =
    [Load.CallConnect
       {| Load.dbname := env !! "DB_NAME";
          Load.host := env !! "DB_HOST";
          Load.password := env !! "DB_PASSWORD";
          Load.user := env !! "DB_USERNAME";
          Load.port := env !! "DB_PORT" |}]
  /\ (forall k : string,
        k ∈ Spec.required -> k ∉ dom env ->
        Load.CallGetenv k None ∈ Load.trace (Load.run w).2).
Proof.
  intros env. split.
  - rewrite run_eq. fold env. simpl.
    by destruct (Load.server_accepts w _ _ _).
  - intros k Hk Hunset. apply not_elem_of_dom in Hunset.
    pose proof (getenv_logged env k Hk) as Hin. rewrite Hunset in Hin.
    rewrite run_eq. cbv zeta. fold env.
    destruct (Load.server_accepts w _ _ _); cbn [snd Load.trace];
      apply elem_of_app; by left.
Qed.

Lemma load_passes_variables_unvalidated_witness :
  ("DB_PORT" ∈ Spec.required)
  /\ ("DB_PORT" ∉ dom (Spec.effective_environ Samples.bare))
  /\ (Load.CallGetenv "DB_PORT" None ∈ Load.trace (Load.run Samples.bare).2).
Proof.
  assert (Hk : "DB_PORT" ∈ Spec.required) by (unfold Spec.required; set_solver).
  assert (Hunset : "DB_PORT" ∉ dom (Spec.effective_environ Samples.bare))
    by (apply not_elem_of_dom; reflexivity).
  split; [exact Hk | split; [exact Hunset |]].
  exact (proj2 (load_passes_variables_unvalidated Samples.bare)
           "DB_PORT" Hk Hunset).
Defined.

(** C5: when the connection attempt succeeds, the run ends normally, the
    call that follows the attempt is the close of the connection it
    returned, this is the only close, no connection is left open and the
    server has as many sessions as before; when the attempt fails, the run
    makes no close. *)
Theorem load_closes_once_iff_connected (w : Load.World) :
  let env := Spec.effective_environ w in
  (Load.server_accepts w (Spec.kwargs_of env) env (Load.sessions w) = true ->
     (Load.run w).1 = Normal tt
     /\ (exists before,
           Load.trace (Load.run w).2 =
             before ++ [Load.CallConnect (Spec.kwargs_of env);
                        Load.CallClose {| Load.session := Load.sessions w |}]
           /\ forallb Spec.is_config_read before = true)
     /\ length (filter (fun e => Spec.is_close e = true)
                  (Load.trace (Load.run w).2)) = 1
     /\ Load.live (Load.run w).2 = []
     /\ Load.sessions (Load.world (Load.run w).2) = Load.sessions w)
  /\ (Load.server_accepts w (Spec.kwargs_of env) env (Load.sessions w) = false ->
     (Load.run w).1 = Raised Load.OperationalError
     /\ filter (fun e => Spec.is_close e = true) (Load.trace (Load.run w).2) = []).
Proof.
  intros env. split; intros Hacc.
  - rewrite run_eq. cbv zeta. fold env. rewrite Hacc. simpl.
    split_and!; try done. by exists (Spec.config_calls env).
  - rewrite run_eq. cbv zeta. fold env. rewrite Hacc. by simpl.
Qed.

Lemma load_closes_once_iff_connected_witness :
  ((Load.run Samples.shell_and_file).1 = Normal tt
   /\ length (filter (fun e => Spec.is_close e = true)
                (Load.trace (Load.run Samples.shell_and_file).2)) = 1)
  /\ ((Load.run Samples.refused).1 = Raised Load.OperationalError
      /\ filter (fun e => Spec.is_close e = true)
           (Load.trace (Load.run Samples.refused).2) = []).
Proof.
  split.
  - destruct (proj1 (load_closes_once_iff_connected Samples.shell_and_file)
                eq_refl) as (Hend & _ & Hone & _).
    exact (conj Hend Hone).
  - exact (proj2 (load_closes_once_iff_connected Samples.refused) eq_refl).
Defined.




(** C9: a variable among the five that the process inherits keeps its value
    through [load_dotenv()], whatever the file binds it to, and the read that
    follows returns the inherited value. *)
Theorem load_keeps_inherited_variables
    (w : Load.World) (k : string) (x : string) :
  k ∈ Spec.required ->
  Load.inherited w !! k = Some x ->
  Load.environ (Load.run w).2 !! k = Some x
  /\ Load.CallGetenv k (Some x) ∈ Load.trace (Load.run w).2.
Proof.
  intros Hk Hset.
  assert (Henv : Spec.effective_environ w !! k = Some x)
    by (by apply loaded_keeps).
  split.
  - by rewrite run_environ.
  - pose proof (getenv_logged (Spec.effective_environ w) k Hk) as Hin.
    rewrite Henv in Hin. rewrite run_eq. cbv zeta.
    destruct (Load.server_accepts w _ _ _); cbn [snd Load.trace];
      apply elem_of_app; by left.
Qed.

Lemma load_keeps_inherited_variables_witness :
  Load.inherited Samples.shell_and_file !! "DB_HOST" = Some "db.internal"
  /\ Spec.last_value "DB_HOST"
       (default [] (Load.dotenv_file Samples.shell_and_file)) =
     Some (Some "localhost")
  /\ Load.environ (Load.run Samples.shell_and_file).2 !! "DB_HOST" =
     Some "db.internal".
Proof.
  split; [reflexivity | split; [reflexivity |]].
  apply (load_keeps_inherited_variables Samples.shell_and_file "DB_HOST").
  - unfold Spec.required. set_solver.
  - reflexivity.
Defined.

(** C10: whatever string [DB_PORT] holds, the run reaches the connection
    attempt and hands it that very string as [port]; the run ends with an
    error only if the attempt is refused. *)
Theorem load_passes_port_as_raw_string (w : Load.World) (p : string) :
  Spec.effective_environ w !! "DB_PORT" = Some p ->
  exists kw,
    filter (fun e => Spec.is_connect e = true) (Load.trace (Load.run w).2) =
      [Load.CallConnect kw]
    /\ Load.port kw = Some p
    /\ (is_raised (Load.run w).1 = true ->
        Load.server_accepts w kw (Spec.effective_environ w) (Load.sessions w)
          = false).
Proof.
  intros Hport. exists (Spec.kwargs_of (Spec.effective_environ w)).
  rewrite run_eq. cbv zeta.
  destruct (Load.server_accepts w _ _ _); simpl; split_and!; done.
Qed.

Lemma load_passes_port_as_raw_string_witness :
  exists kw,
    filter (fun e => Spec.is_connect e = true)
      (Load.trace (Load.run Samples.shell_and_file).2) = [Load.CallConnect kw]
    /\ Load.port kw = Some "not-a-number".
Proof.
  destruct (load_passes_port_as_raw_string Samples.shell_and_file
              "not-a-number" eq_refl) as (kw & Hone & Hport & _).
  exists kw. exact (conj Hone Hport).
Defined.

(** C7: a second run of either script, started in the world the first run
    left, ends the same way and shows the same output (what was printed, or
    the calls made); indeed each run leaves the world as it found it. *)
Theorem rerun_shows_the_same
    {Cell : Type} (decode : list Byte.byte -> option (Extract.DataFrame Cell))
    (we : Extract.World) (wl : Load.World) :
  (Extract.run_twice decode we).1 = (Extract.run_twice decode we).2
  /\ (Load.run_twice wl).1 = (Load.run_twice wl).2
  /\ Extract.world (Extract.run decode we).2 = we
  /\ Load.world (Load.run wl).2 = wl.
Proof.
  pose proof (run_world decode we) as Hwe.
  pose proof (run_world_same wl) as Hwl.
  split_and!; try done.
  - unfold Extract.run_twice.
    destruct (Extract.run decode we) as [c1 p1] eqn:Hrun. simpl in Hwe.
    rewrite Hwe, Hrun. done.
  - unfold Load.run_twice.
    destruct (Load.run wl) as [c1 p1] eqn:Hrun. simpl in Hwl.
    rewrite Hwl, Hrun. done.
Qed.

(** ** Further properties of the two scripts *)

(** X2: whatever the size of the fetched table, the preview printed first
    holds min(10, N) of its N rows, these are the leading rows in dataset
    order, and its columns are the labels printed after it. *)
Theorem extract_preview_bounded_and_aligned
    {Cell : Type} (decode : list Byte.byte -> option (Extract.DataFrame Cell))
    (w : Extract.World) (payload : list Byte.byte) (df : Extract.DataFrame Cell) :
  Extract.http_get w Extract.url = Extract.Body payload ->
  decode payload = Some df ->
  exists preview,
    Extract.stdout (Extract.run decode w).2 =
      [Extract.ObjFrame preview; Extract.ObjIndex (Extract.columns preview)]
    /\ Extract.columns preview = Extract.columns df
    /\ length (Extract.rows preview) = Nat.min 10 (length (Extract.rows df))
    /\ Extract.rows preview `prefix_of` Extract.rows df.
Proof.
  intros Hget Hdec. exists (Extract.head 10 df).
  rewrite (run_fetched decode w payload df Hget Hdec).
  split_and!; try done.
  - rewrite head_10_rows, length_take. done.
  - rewrite head_10_rows. apply prefix_take.
Qed.

Lemma extract_preview_bounded_and_aligned_witness :
  exists preview,
    Extract.stdout (Extract.run Samples.decode Samples.three_rows).2 =
      [Extract.ObjFrame preview; Extract.ObjIndex (Extract.columns preview)]
    /\ length (Extract.rows preview) = 3.
Proof.
  destruct (extract_preview_bounded_and_aligned
              Samples.decode Samples.three_rows
              [Byte.x01; Byte.x02; Byte.x03]
              {| Extract.columns := ["customer_id"; "amount_billed"];
                 Extract.rows := [[1%Z; 0%Z]; [2%Z; 0%Z]; [3%Z; 0%Z]] |}
              eq_refl eq_refl) as (preview & Hout & _ & Hlen & _).
  exists preview. exact (conj Hout Hlen).
Defined.

(** X4: when loading is not disabled through [PYTHON_DOTENV_DISABLED], a
    variable among the five that the process does not inherit is read as the
    [.env] file gives it: the value of the name's last binding in the file,
    and [None] when that binding has no value or the file does not bind the
    name. *)
Theorem load_reads_file_value_when_not_inherited
    (w : Load.World) (bs : list Load.binding) (k : string) :
  k ∈ Spec.required ->
  Load.inherited w !! k = None ->
  Load.dotenv_file w = Some bs ->
  forallb Load.settable bs = true ->
  Load.dotenv_disabled (Load.inherited w) = false ->
  Load.CallGetenv k (mjoin (Spec.last_value k bs)) ∈ Load.trace (Load.run w).2.
Proof.
  intros Hk Hunset Hfile _ Henabled.
  pose proof (getenv_logged (Spec.effective_environ w) k Hk) as Hin.
  rewrite effective_environ_lookup, Hunset, Henabled, Hfile in Hin.
  rewrite run_eq. cbv zeta.
  destruct (Load.server_accepts w _ _ _); cbn [snd Load.trace];
    apply elem_of_app; by left.
Qed.

Lemma load_reads_file_value_when_not_inherited_witness :
  (Load.CallGetenv "DB_NAME" (Some "billing")
     ∈ Load.trace (Load.run Samples.file_only).2)
  /\ (Load.CallGetenv "DB_PORT" None
        ∈ Load.trace (Load.run Samples.file_only).2).
Proof.
  assert (Hname : "DB_NAME" ∈ Spec.required) by apply list_elem_of_here.
  assert (Hport : "DB_PORT" ∈ Spec.required)
    by (do 4 apply list_elem_of_further; apply list_elem_of_here).
  split.
  - exact (load_reads_file_value_when_not_inherited Samples.file_only
             _ "DB_NAME" Hname eq_refl eq_refl eq_refl eq_refl).
  - exact (load_reads_file_value_when_not_inherited Samples.file_only
             _ "DB_PORT" Hport eq_refl eq_refl eq_refl eq_refl).
Defined.

(** X5: loading the file only adds variables: every inherited variable, of
    any name, is in the environment of the process with its inherited value
    when the run ends, and every other variable found there carries the
    value of its last binding in the file. *)
Theorem load_environment_only_grows (w : Load.World) :
  Load.inherited w ⊆ Load.environ (Load.run w).2
  /\ (forall (k x : string),
        Load.environ (Load.run w).2 !! k = Some x ->
        Load.inherited w !! k = None ->
        exists bs, Load.dotenv_file w = Some bs
                   /\ Spec.last_value k bs = Some (Some x)).
Proof.
  rewrite run_environ. split.
  - apply map_subseteq_spec. intros k x Hk. by apply loaded_keeps.
  - intros k x Hk Hunset. rewrite effective_environ_lookup, Hunset in Hk.
    destruct (Load.dotenv_disabled (Load.inherited w)); [done |].
    destruct (Load.dotenv_file w) as [bs |]; [| done].
    exists bs. split; [done |].
    destruct (Spec.last_value k bs) as [[y |] |]; simpl in Hk; congruence.
Qed.

Lemma load_environment_only_grows_witness :
  Load.environ (Load.run Samples.busy_shell).2 !! "HOME" = Some "/home/etl"
  /\ exists bs, Load.dotenv_file Samples.busy_shell = Some bs
                /\ Spec.last_value "API_KEY" bs = Some (Some "k").
Proof.
  destruct (load_environment_only_grows Samples.busy_shell) as [Hsub Hnew].
  split.
  - exact (proj1 (map_subseteq_spec _ _) Hsub "HOME" "/home/etl" eq_refl).
  - apply (Hnew "API_KEY" "k"); [vm_compute |]; reflexivity.
Defined.

(** X6: the connection attempt is made from the five variables and nothing
    else: two worlds in which the five reads return the same values make
    their attempt with the same arguments, whatever else their environments
    and files hold. *)
Theorem load_connects_from_five_variables_only (w1 w2 : Load.World) :
  (forall k : string,
     k ∈ Spec.required ->
     Spec.effective_environ w1 !! k = Spec.effective_environ w2 !! k) ->
  filter (fun e => Spec.is_connect e = true) (Load.trace (Load.run w1).2) =
  filter (fun e => Spec.is_connect e = true) (Load.trace (Load.run w2).2).
Proof.
  intros Hsame.
  assert (Hkw : Spec.kwargs_of (Spec.effective_environ w1) =
                Spec.kwargs_of (Spec.effective_environ w2)).
  { unfold Spec.kwargs_of.
    rewrite !(Hsame _) by (unfold Spec.required; set_solver). done. }
  rewrite !run_eq. cbv zeta. rewrite Hkw.
  by destruct (Load.server_accepts w1 _ _ _),
              (Load.server_accepts w2 _ _ _).
Qed.

Lemma load_connects_from_five_variables_only_witness :
  Load.inherited Samples.busy_shell <> Load.inherited Samples.shell_and_file
  /\ filter (fun e => Spec.is_connect e = true)
       (Load.trace (Load.run Samples.busy_shell).2) =
     filter (fun e => Spec.is_connect e = true)
       (Load.trace (Load.run Samples.shell_and_file).2).
Proof.
  split.
  - intros Heq. apply (f_equal (fun m => m !! "HOME")) in Heq.
    vm_compute in Heq. discriminate Heq.
  - apply (load_connects_from_five_variables_only
             Samples.busy_shell Samples.shell_and_file).
    intros k Hk. unfold Spec.required in Hk.
    repeat (apply elem_of_cons in Hk as [-> | Hk]; [vm_compute; reflexivity |]).
    by apply elem_of_nil in Hk.
Defined.

(** X7: without a [.env] file, or with one that binds nothing, the run
    changes nothing in the environment: the five reads return the inherited
    values and the process ends with the environment it inherited. *)
Theorem load_without_file_uses_inherited (w : Load.World) :
  Load.dotenv_file w = None \/ Load.dotenv_file w = Some [] ->
  Load.environ (Load.run w).2 = Load.inherited w
  /\ filter (fun e => Spec.is_connect e = true) (Load.trace (Load.run w).2) =
       [Load.CallConnect (Spec.kwargs_of (Load.inherited w))].
Proof.
  intros Hfile.
  assert (Henv : Spec.effective_environ w = Load.inherited w).
  { unfold Spec.effective_environ.
    destruct Hfile as [-> | ->];
      [apply loaded_no_file | apply loaded_empty_file]. }
  rewrite run_eq. cbv zeta. rewrite Henv.
  by destruct (Load.server_accepts w _ _ _).
Qed.

Lemma load_without_file_uses_inherited_witness :
  Load.environ (Load.run Samples.refused).2 =
    {[ "DB_HOST" := "db.internal" ]}
  /\ filter (fun e => Spec.is_connect e = true)
       (Load.trace (Load.run Samples.refused).2) =
     [Load.CallConnect
        {| Load.dbname := None; Load.host := Some "db.internal";
           Load.password := None; Load.user := None; Load.port := None |}].
Proof.
  exact (load_without_file_uses_inherited Samples.refused (or_introl eq_refl)).
Defined.
